(** * The auth client of the frontend: [frontend/src/api/loginAPI.ts]

    A shallow embedding of the module and of its two exported functions,
    [redirectToLogin] and [refreshAccessToken], together with the type
    declarations of the file, and the properties the specification states
    about them.

    - The build-time environment [import.meta.env] is a finite map from
      variable names to strings; a variable that is not set reads as
      [undefined], here [None].
    - The browser and the network are an explicit [world]: the location of
      the browsing context, the console, and the log of outbound requests.
    - [axios.post] is not part of the repository: it records the request in
      the log and settles the way the [transport] of the enclosing section
      says, fulfilled with a response or rejected with an error;
      [axios_defaults] is the transport that the defaults of the library
      make of what comes back on the wire.
    - An [async] function is a state-passing computation that ends
      [Fulfilled] or [Rejected]; [await] is the bind of that monad. *)

From stdpp Require Import gmap strings list.

Set Warnings "-register-all".

(** ** JavaScript values *)

(** The values that travel as request and response bodies. An object is a
    finite map from property names to values, so that two objects are equal
    exactly when they have the same properties with equal values, at every
    depth. Numbers are the integers: the only number of this client's
    payloads is a count of seconds, and the client computes with none; a
    number that is not an integer has no value here, and the theorems on
    [refreshAccessToken] are stated for every payload type instead. *)
Inductive js_value : Type :=
  | JUndefined
  | JNull
  | JBoolean (b : bool)
  | JNumber (n : Z)
  | JString (s : string)
  | JArray (items : list js_value)
  | JObject (props : gmap string js_value).

(** ** The environment and the base URL *)

Definition VITE_API_URL : string := "VITE_API_URL".

Definition LOCAL_DEFAULT : string := "http://localhost:8000".

(** [ToBoolean] on what a lookup in [import.meta.env] yields: [undefined]
    and the empty string are falsy, every other string is truthy. *)
Definition ToBoolean (v : option string) : bool :=
  match v with
  | None => false
  | Some s => negb (String.eqb s "")
  end.

(** [a || b]: the left operand when it is truthy, else the right one. *)
Definition logical_or (a : option string) (b : string) : string :=
  match a with
  | Some s => if ToBoolean a then s else b
  | None => b
  end.

(** [import.meta.env.VITE_API_URL || "http://localhost:8000"] *)
Definition resolve_base_url (env : gmap string string) : string :=
  logical_or (env !! VITE_API_URL) LOCAL_DEFAULT.

(** ** The world outside the module *)

Inductive http_method : Type := GET | POST.

Record request : Type := mk_request {
  req_method : http_method;
  req_url : string;
  req_body : js_value
}.

Record world : Type := mk_world {
  env : gmap string string;      (* import.meta.env *)
  href : string;                 (* window.location.href *)
  console : list string;         (* lines written by console.log *)
  network : list request         (* outbound requests, oldest first *)
}.

(** The top-level bindings of the module. *)
Record module : Type := mk_module {
  API_BASE_URL : string
}.

(** A loaded module in its world. *)
Record client_state : Type := mk_state {
  scope : module;
  outside : world
}.

Definition set_href (u : string) (w : world) : world :=
  mk_world (env w) u (console w) (network w).

Definition console_log (line : string) (w : world) : world :=
  mk_world (env w) (href w) (console w ++ [line]) (network w).

Definition send (r : request) (w : world) : world :=
  mk_world (env w) (href w) (console w) (network w ++ [r]).

Definition set_env (k v : string) (w : world) : world :=
  mk_world (<[k := v]> (env w)) (href w) (console w) (network w).

Definition unset_env (k : string) (w : world) : world :=
  mk_world (delete k (env w)) (href w) (console w) (network w).

(** Evaluating the module body: line 8 binds [API_BASE_URL], line 9 logs
    it. *)
Definition load_module (w : world) : client_state :=
  let base := resolve_base_url (env w) in
  mk_state (mk_module base) (console_log base w).

(** [redirectToLogin]: assigns the template string to
    [window.location.href] and returns nothing. *)
Definition redirectToLogin (st : client_state) : unit * client_state :=
  (tt,
   mk_state (scope st)
     (set_href (API_BASE_URL (scope st) +:+ "/auth/login?redirect=true")
        (outside st))).

(** ** Promises and the transport *)

(** How a promise settles. [E] is the type of what the transport throws. *)
Inductive settled (E A : Type) : Type :=
  | Fulfilled (a : A)
  | Rejected (e : E).

Arguments Fulfilled {E A} a.
Arguments Rejected {E A} e.

(** What [axios.post<T>] fulfils with; the client reads [data] only. *)
Record AxiosResponse (T : Type) : Type := mk_response {
  data : T;
  status : Z;
  statusText : string
}.

Arguments mk_response {T} data status statusText.
Arguments data {T} _.
Arguments status {T} _.
Arguments statusText {T} _.

(** An [async] computation: it runs in a state, and settles. *)
Definition async (E A : Type) : Type :=
  client_state -> settled E A * client_state.

Definition resolved {E A : Type} (a : A) : async E A :=
  fun st => (Fulfilled a, st).

(** [await]: a rejection of the awaited promise is thrown, and so rejects
    the promise of the enclosing [async] function with the same error. *)
Definition await {E A B : Type} (p : async E A) (k : A -> async E B)
  : async E B :=
  fun st =>
    match p st with
    | (Fulfilled a, st') => k a st'
    | (Rejected e, st') => (Rejected e, st')
    end.

Notation "'let!' x ':=' p 'in' k" := (await p (fun x => k))
  (at level 10, x name, p at level 100, k at level 200).

Definition read_API_BASE_URL {E : Type} : async E string :=
  fun st => (Fulfilled (API_BASE_URL (scope st)), st).

(** The request the specification describes for a refresh: a POST to
    [{base_url}/auth/refresh] whose body is [{ "refresh_token": token }]. *)
Definition refresh_request (base refresh_token : string) : request :=
  mk_request POST (base +:+ "/auth/refresh")
    (JObject {[ "refresh_token" := JString refresh_token ]}).

(** What can happen to a loaded module: calls of its two functions, and
    writes to the environment by the rest of the page. *)
Inductive action : Type :=
  | CallRedirectToLogin
  | CallRefreshAccessToken (refresh_token : string)
  | EnvWrite (k v : string)
  | EnvDelete (k : string).

Section Client.

(** [T] is the type argument of [axios.post<T>], [E] what the transport
    throws, and [transport] the outcome of sending a request in a world. *)
Context {T E : Type}.
Variable transport : world -> request -> settled E (AxiosResponse T).

(** [axios.post(url, data)]: one POST request goes out. *)
Definition axios_post (url : string) (body : js_value)
  : async E (AxiosResponse T) :=
  fun st =>
    let r := mk_request POST url body in
    (transport (outside st) r, mk_state (scope st) (send r (outside st))).

(** [refreshAccessToken]: the body is the object literal
    [{ refresh_token }], the result is [res.data]. *)
Definition refreshAccessToken (refresh_token : string) : async E T :=
  let! base := read_API_BASE_URL in
  let! res := axios_post (base +:+ "/auth/refresh")
                (JObject {[ "refresh_token" := JString refresh_token ]}) in
  resolved (data res).

(** One action, and a whole history of them. *)
Definition step (st : client_state) (a : action) : client_state :=
  match a with
  | CallRedirectToLogin => snd (redirectToLogin st)
  | CallRefreshAccessToken tok => snd (refreshAccessToken tok st)
  | EnvWrite k v => mk_state (scope st) (set_env k v (outside st))
  | EnvDelete k => mk_state (scope st) (unset_env k (outside st))
  end.

Definition run (acts : list action) (st : client_state) : client_state :=
  foldl step st acts.

End Client.

(** ** The type declarations of the file *)

Inductive ts_type : Type := TsString | TsNumber.

Record ts_property : Type := mk_property {
  prop_name : string;
  prop_type : ts_type;
  prop_optional : bool
}.

(** An object type: its properties, in the order of the declaration. *)
Definition ts_object_type : Type := list ts_property.

Definition AuthLoginResponse : ts_object_type :=
  [ mk_property "auth_url" TsString false;
    mk_property "state" TsString false ].

Definition TokenResponse : ts_object_type :=
  [ mk_property "access_token" TsString false;
    mk_property "token_type" TsString false;
    mk_property "expires_in" TsNumber false;
    mk_property "refresh_token" TsString true;
    mk_property "scope" TsString true ].

(** The shape the specification gives for the payload of the login
    endpoint, in the specification's words. *)
Definition AuthorizationHandoff_spec : ts_object_type :=
  [ mk_property "authorization_url" TsString false;
    mk_property "state" TsString false ].

(** The declaration of a property, by name. *)
Fixpoint lookup_property (name : string) (t : ts_object_type)
  : option (ts_type * bool) :=
  match t with
  | [] => None
  | p :: t' =>
      if String.eqb (prop_name p) name
      then Some (prop_type p, prop_optional p)
      else lookup_property name t'
  end.

Definition ts_type_eqb (a b : ts_type) : bool :=
  match a, b with
  | TsString, TsString | TsNumber, TsNumber => true
  | _, _ => false
  end.

Definition declares (t : ts_object_type) (p : ts_property) : bool :=
  match lookup_property (prop_name p) t with
  | Some (ty, opt) =>
      ts_type_eqb ty (prop_type p) && Bool.eqb opt (prop_optional p)
  | None => false
  end.

(** Two object types have the same shape when each declares every property
    of the other, with the same type and the same optionality. *)
Definition same_shape (t1 t2 : ts_object_type) : bool :=
  forallb (declares t2) t1 && forallb (declares t1) t2.

(** Structural typing of a value against an object type: a required
    property is present with a value of its type, an optional one may also
    be absent or [undefined]; further properties are allowed. *)
Definition has_type (ty : ts_type) (v : js_value) : bool :=
  match ty, v with
  | TsString, JString _ => true
  | TsNumber, JNumber _ => true
  | _, _ => false
  end.

Definition property_ok (props : gmap string js_value) (p : ts_property)
  : bool :=
  match props !! prop_name p with
  | None => prop_optional p
  | Some JUndefined => prop_optional p
  | Some v => has_type (prop_type p) v
  end.

Definition conforms (t : ts_object_type) (v : js_value) : bool :=
  match v with
  | JObject props => forallb (property_ok props) t
  | _ => false
  end.

(** ** Mocked transports *)

Inductive mock_failure : Type :=
  | NetworkError
  | HttpError (code : Z)
  | MalformedBody.

Definition mocked_payload : js_value :=
  JObject (<["access_token" := JString "t"]>
          (<["token_type" := JString "bearer"]>
          (<["expires_in" := JNumber 3600]> ∅))).

Definition mock_success
  : world -> request -> settled mock_failure (AxiosResponse js_value) :=
  fun _ _ => Fulfilled (mk_response mocked_payload 200 "OK").

Definition mock_unauthorized
  : world -> request -> settled mock_failure (AxiosResponse js_value) :=
  fun _ _ => Rejected (HttpError 401).

Definition empty_setting_world : world :=
  mk_world (<[VITE_API_URL := ""]> ∅) "about:blank" [] [].

Definition blank_world : world := mk_world ∅ "about:blank" [] [].

Definition deployed_world : world :=
  mk_world (<[VITE_API_URL := "https://api.example.com"]> ∅)
    "about:blank" [] [].

(** ** The defaults of axios *)

(** Modelled from the defaults of the library, which is not part of the
    repository: line 37 passes [axios.post] a URL and a body and no
    configuration, so that the default [validateStatus], the default
    [transformResponse] and silent JSON parsing apply.

    What comes back on the wire is no reply at all (a DNS or network
    failure) or a reply; a reply carries its status, its body text and what
    [JSON.parse] makes of that text, [None] when the text is not JSON. *)
Record http_reply : Type := mk_reply {
  reply_status : Z;
  reply_statusText : string;
  reply_text : string;
  reply_json : option js_value
}.

Inductive wire_outcome : Type :=
  | NoReply
  | Reply (r : http_reply).

(** What axios rejects with: a network error, or an error that carries the
    response whose status did not validate. *)
Inductive axios_error : Type :=
  | ERR_NETWORK
  | ERR_STATUS (response : AxiosResponse js_value).

(** [validateStatus]: [status >= 200 && status < 300]. *)
Definition default_validateStatus (st : Z) : bool :=
  (200 <=? st)%Z && (st <? 300)%Z.

(** [transformResponse]: a non-empty text is parsed as JSON, and when the
    parse throws the error is swallowed and the text itself is the data. *)
Definition default_transformResponse (r : http_reply) : js_value :=
  if String.eqb (reply_text r) "" then JString ""
  else match reply_json r with
       | Some v => v
       | None => JString (reply_text r)
       end.

(** [settle]: the promise is fulfilled when the status is 0 or validates,
    and rejected otherwise. *)
Definition settle (r : http_reply)
  : settled axios_error (AxiosResponse js_value) :=
  let response :=
    mk_response (default_transformResponse r) (reply_status r)
      (reply_statusText r) in
  if (reply_status r =? 0)%Z || default_validateStatus (reply_status r)
  then Fulfilled response
  else Rejected (ERR_STATUS response).

Definition axios_defaults (wire : world -> request -> wire_outcome)
  : world -> request -> settled axios_error (AxiosResponse js_value) :=
  fun w r =>
    match wire w r with
    | NoReply => Rejected ERR_NETWORK
    | Reply reply => settle reply
    end.

(** The failure modes in the words of the specification: a network error,
    a status that is not a success status, a malformed body. *)
Definition spec_failure (o : wire_outcome) : bool :=
  match o with
  | NoReply => true
  | Reply r =>
      negb (default_validateStatus (reply_status r))
      || match reply_json r with
         | Some _ => false
         | None => true
         end
  end.

(** A backend, or a proxy before it, that answers 200 with a page of HTML. *)
Definition html_wire : world -> request -> wire_outcome :=
  fun _ _ => Reply (mk_reply 200 "OK" "<html>Bad gateway</html>" None).

Definition unauthorized_wire : world -> request -> wire_outcome :=
  fun _ _ =>
    Reply (mk_reply 401 "Unauthorized" "{}" (Some (JObject ∅))).

Definition offline_wire : world -> request -> wire_outcome :=
  fun _ _ => NoReply.

(** ** Histories, read back *)



Definition is_redirect (a : action) : bool :=
  match a with
  | CallRedirectToLogin => true
  | _ => false
  end.

(** The actions that are calls into the module. *)
Definition is_call (a : action) : bool :=
  match a with
  | CallRedirectToLogin | CallRefreshAccessToken _ => true
  | EnvWrite _ _ | EnvDelete _ => false
  end.


(** * Properties *)

(** ** Resolution of the base URL *)

Lemma ToBoolean_false_iff (v : option string) :
  ToBoolean v = false <-> v = None \/ v = Some "".
Proof.
  destruct v as [s|]; simpl.
  - rewrite negb_false_iff, String.eqb_eq. split.
    + intros ->. now right.
    + intros [H|H]; congruence.
  - split; auto.
Qed.

Lemma logical_or_truthy (s d : string) :
  s <> "" -> logical_or (Some s) d = s.
Proof.
  intros Hs. unfold logical_or, ToBoolean.
  apply String.eqb_neq in Hs. now rewrite Hs.
Qed.

Lemma logical_or_falsy (v : option string) (d : string) :
  ToBoolean v = false -> logical_or v d = d.
Proof.
  intros Hv. destruct v as [s|]; [|reflexivity].
  unfold logical_or. now rewrite Hv.
Qed.

Lemma load_module_base (w : world) :
  API_BASE_URL (scope (load_module w)) = resolve_base_url (env w).
Proof. reflexivity. Qed.

(** C3, as the specification states it, fails: a variable set to the empty
    string does not resolve to the empty string. *)
Lemma set_to_empty_does_not_resolve_to_empty :
  env empty_setting_world !! VITE_API_URL = Some "" /\
  API_BASE_URL (scope (load_module empty_setting_world)) <> "".
Proof. split; [reflexivity | discriminate]. Qed.

(** C3, amended: when the variable is set to a non-empty value [V], the
    base URL bound at module load is [V]. *)
Theorem set_nonempty_resolves_to_value (w : world) (V : string) :
  env w !! VITE_API_URL = Some V ->
  V <> "" ->
  API_BASE_URL (scope (load_module w)) = V.
Proof.
  intros Hset Hne. rewrite load_module_base. unfold resolve_base_url.
  rewrite Hset. now apply logical_or_truthy.
Qed.

Lemma set_nonempty_resolves_to_value_witness :
  env deployed_world !! VITE_API_URL = Some "https://api.example.com" /\
  API_BASE_URL (scope (load_module deployed_world))
    = "https://api.example.com".
Proof.
  split; [reflexivity|].
  apply (set_nonempty_resolves_to_value deployed_world
           "https://api.example.com"); [reflexivity | discriminate].
Defined.

(** C4: when the variable is not set, the base URL bound at module load is
    the local-development default, [http://localhost:8000]. *)
Theorem unset_resolves_to_default (w : world) :
  env w !! VITE_API_URL = None ->
  API_BASE_URL (scope (load_module w)) = "http://localhost:8000".
Proof.
  intros Hunset. rewrite load_module_base. unfold resolve_base_url.
  now rewrite Hunset.
Qed.

Lemma unset_resolves_to_default_witness :
  env blank_world !! VITE_API_URL = None /\
  API_BASE_URL (scope (load_module blank_world)) = "http://localhost:8000".
Proof.
  split; [reflexivity|].
  apply (unset_resolves_to_default blank_world). reflexivity.
Defined.

(** C10: when the variable holds a falsy value, that is when it is set to
    the empty string or reads as [undefined], the base URL bound at module
    load is the local-development default and not the empty string. *)
Theorem falsy_resolves_to_default (w : world) :
  ToBoolean (env w !! VITE_API_URL) = false ->
  API_BASE_URL (scope (load_module w)) = "http://localhost:8000" /\
  API_BASE_URL (scope (load_module w)) <> "".
Proof.
  intros Hfalsy. rewrite load_module_base. unfold resolve_base_url.
  rewrite (logical_or_falsy _ _ Hfalsy). split; [reflexivity | discriminate].
Qed.

Lemma falsy_resolves_to_default_witness :
  ToBoolean (env empty_setting_world !! VITE_API_URL) = false /\
  API_BASE_URL (scope (load_module empty_setting_world))
    = "http://localhost:8000" /\
  API_BASE_URL (scope (load_module empty_setting_world)) <> "".
Proof.
  split; [reflexivity|].
  apply (falsy_resolves_to_default empty_setting_world). reflexivity.
Defined.

(** ** The login redirect *)

(** C5: a call of [redirectToLogin] sets the location to
    [{base_url}/auth/login?redirect=true], returns nothing, and leaves the
    environment, the console, the network log and the bindings of the
    module as they were. *)
Theorem redirectToLogin_navigates_only (st : client_state) :
  fst (redirectToLogin st) = tt /\
  href (outside (snd (redirectToLogin st)))
    = API_BASE_URL (scope st) +:+ "/auth/login?redirect=true" /\
  env (outside (snd (redirectToLogin st))) = env (outside st) /\
  console (outside (snd (redirectToLogin st))) = console (outside st) /\
  network (outside (snd (redirectToLogin st))) = network (outside st) /\
  scope (snd (redirectToLogin st)) = scope st.
Proof. unfold redirectToLogin; simpl. repeat split. Qed.

Lemma redirectToLogin_default_example :
  href (outside (snd (redirectToLogin (load_module blank_world))))
    = "http://localhost:8000/auth/login?redirect=true".
Proof. reflexivity. Qed.

(** ** The token refresh *)

Section ClientProperties.

Context {T E : Type}.
Variable transport : world -> request -> settled E (AxiosResponse T).

(** The computation, unfolded: the state after a call, and its outcome. *)
Lemma refreshAccessToken_state (tok : string) (st : client_state) :
  snd (refreshAccessToken transport tok st)
    = mk_state (scope st)
        (send (refresh_request (API_BASE_URL (scope st)) tok) (outside st)).
Proof.
  unfold refreshAccessToken, await, read_API_BASE_URL, axios_post,
    resolved, refresh_request.
  destruct (transport _ _); reflexivity.
Qed.

Lemma refreshAccessToken_outcome (tok : string) (st : client_state) :
  fst (refreshAccessToken transport tok st)
    = match transport (outside st)
              (refresh_request (API_BASE_URL (scope st)) tok) with
      | Fulfilled res => Fulfilled (data res)
      | Rejected e => Rejected e
      end.
Proof.
  unfold refreshAccessToken, await, read_API_BASE_URL, axios_post,
    resolved, refresh_request.
  destruct (transport _ _); reflexivity.
Qed.

(** C1: whatever the transport answers, a call of [refreshAccessToken]
    adds exactly one request to the network log, a POST to
    [{base_url}/auth/refresh] whose body is the object with the single
    property [refresh_token] holding the argument, and it does not
    navigate. *)
Theorem refreshAccessToken_one_post (tok : string) (st : client_state) :
  network (outside (snd (refreshAccessToken transport tok st)))
    = network (outside st)
      ++ [mk_request POST (API_BASE_URL (scope st) +:+ "/auth/refresh")
            (JObject {[ "refresh_token" := JString tok ]})] /\
  href (outside (snd (refreshAccessToken transport tok st)))
    = href (outside st).
Proof. rewrite refreshAccessToken_state. split; reflexivity. Qed.

(** C2, amended: on every outcome on which the transport rejects, a
    network error or a status that does not validate, the promise of
    [refreshAccessToken] rejects with that very error, and is fulfilled
    with no value. *)
Theorem refreshAccessToken_propagates_error
    (tok : string) (st : client_state) (e : E) :
  transport (outside st) (refresh_request (API_BASE_URL (scope st)) tok)
    = Rejected e ->
  fst (refreshAccessToken transport tok st) = Rejected e /\
  forall d : T, fst (refreshAccessToken transport tok st) <> Fulfilled d.
Proof.
  intros Hfail. rewrite refreshAccessToken_outcome, Hfail.
  split; [reflexivity | discriminate].
Qed.

(** C6: when the transport fulfils with a response, the promise of
    [refreshAccessToken] is fulfilled with the [data] of that response
    itself. *)
Theorem refreshAccessToken_returns_payload
    (tok : string) (st : client_state) (res : AxiosResponse T) :
  transport (outside st) (refresh_request (API_BASE_URL (scope st)) tok)
    = Fulfilled res ->
  fst (refreshAccessToken transport tok st) = Fulfilled (data res).
Proof.
  intros Hok. now rewrite refreshAccessToken_outcome, Hok.
Qed.

(** C9: for every argument, the empty string included, the POST request
    carrying it goes out, and the promise settles the way the transport
    does: the client rejects with nothing of its own. *)
Theorem refreshAccessToken_no_validation (tok : string) (st : client_state) :
  network (outside (snd (refreshAccessToken transport tok st)))
    = network (outside st)
      ++ [refresh_request (API_BASE_URL (scope st)) tok] /\
  network (outside (snd (refreshAccessToken transport "" st)))
    = network (outside st)
      ++ [mk_request POST (API_BASE_URL (scope st) +:+ "/auth/refresh")
            (JObject {[ "refresh_token" := JString "" ]})] /\
  fst (refreshAccessToken transport tok st)
    = match transport (outside st)
              (refresh_request (API_BASE_URL (scope st)) tok) with
      | Fulfilled res => Fulfilled (data res)
      | Rejected e => Rejected e
      end.
Proof.
  rewrite !refreshAccessToken_state, refreshAccessToken_outcome.
  repeat split.
Qed.

(** ** The base URL over the life of the module *)

Lemma step_scope (st : client_state) (a : action) :
  scope (step transport st a) = scope st.
Proof.
  destruct a; simpl; try reflexivity.
  now rewrite refreshAccessToken_state.
Qed.

Lemma run_scope (acts : list action) (st : client_state) :
  scope (run transport acts st) = scope st.
Proof.
  unfold run. revert st.
  induction acts as [|a acts IH]; intros st; simpl; [reflexivity|].
  now rewrite IH, step_scope.
Qed.

(** C8: the base URL is the one resolved from the environment at module
    load. After any history of calls and of later writes to the
    environment, the binding still holds that value, a call of
    [redirectToLogin] navigates under it, a call of [refreshAccessToken]
    posts under it, and neither call changes the binding. *)
Theorem base_url_fixed_at_load
    (w : world) (acts : list action) (tok : string) :
  API_BASE_URL (scope (run transport acts (load_module w)))
    = resolve_base_url (env w) /\
  href (outside (snd (redirectToLogin (run transport acts (load_module w)))))
    = resolve_base_url (env w) +:+ "/auth/login?redirect=true" /\
  network (outside (snd (refreshAccessToken transport tok
                           (run transport acts (load_module w)))))
    = network (outside (run transport acts (load_module w)))
      ++ [refresh_request (resolve_base_url (env w)) tok] /\
  scope (snd (redirectToLogin (run transport acts (load_module w))))
    = scope (load_module w) /\
  scope (snd (refreshAccessToken transport tok
                (run transport acts (load_module w))))
    = scope (load_module w).
Proof.
  rewrite refreshAccessToken_state. simpl.
  rewrite !run_scope. simpl. repeat split.
Qed.

End ClientProperties.

Lemma refreshAccessToken_propagates_error_witness :
  mock_unauthorized (outside (load_module blank_world))
      (refresh_request "http://localhost:8000" "abc123")
    = Rejected (HttpError 401) /\
  fst (refreshAccessToken mock_unauthorized "abc123"
         (load_module blank_world))
    = Rejected (HttpError 401).
Proof.
  split; [reflexivity|].
  apply (refreshAccessToken_propagates_error mock_unauthorized "abc123"
           (load_module blank_world) (HttpError 401)).
  reflexivity.
Defined.

(** C2, as the specification states it, fails: a malformed body is among
    the failures it lists, yet on a reply of status 200 whose body is not
    JSON the promise is fulfilled, with the text of the body, which is no
    [TokenResponse]. *)
Lemma malformed_body_is_fulfilled :
  spec_failure (html_wire (outside (load_module blank_world))
                  (refresh_request "http://localhost:8000" "abc123")) = true /\
  fst (refreshAccessToken (axios_defaults html_wire) "abc123"
         (load_module blank_world))
    = Fulfilled (JString "<html>Bad gateway</html>") /\
  (forall e : axios_error,
     fst (refreshAccessToken (axios_defaults html_wire) "abc123"
            (load_module blank_world)) <> Rejected e) /\
  conforms TokenResponse (JString "<html>Bad gateway</html>") = false.
Proof. repeat split. discriminate. Qed.

(** Under the defaults of axios, the promise rejects exactly when there is
    no reply or the status of the reply does not validate; the error is
    the one of axios. *)
Lemma refreshAccessToken_under_axios_defaults
    (wire : world -> request -> wire_outcome)
    (tok : string) (st : client_state) :
  fst (refreshAccessToken (axios_defaults wire) tok st)
    = match wire (outside st)
              (refresh_request (API_BASE_URL (scope st)) tok) with
      | NoReply => Rejected ERR_NETWORK
      | Reply r =>
          if (reply_status r =? 0)%Z || default_validateStatus (reply_status r)
          then Fulfilled (default_transformResponse r)
          else Rejected
                 (ERR_STATUS
                    (mk_response (default_transformResponse r)
                       (reply_status r) (reply_statusText r)))
      end.
Proof.
  rewrite refreshAccessToken_outcome. unfold axios_defaults, settle.
  destruct (wire _ _) as [|r]; [reflexivity|].
  destruct (_ || _); reflexivity.
Qed.

Lemma refresh_offline_example :
  fst (refreshAccessToken (axios_defaults offline_wire) "abc123"
         (load_module blank_world))
    = Rejected ERR_NETWORK.
Proof. reflexivity. Qed.

Lemma refresh_unauthorized_example :
  fst (refreshAccessToken (axios_defaults unauthorized_wire) "abc123"
         (load_module blank_world))
    = Rejected (ERR_STATUS (mk_response (JObject ∅) 401 "Unauthorized")).
Proof. reflexivity. Qed.

Lemma refreshAccessToken_returns_payload_witness :
  mock_success (outside (load_module blank_world))
      (refresh_request "http://localhost:8000" "abc123")
    = Fulfilled (mk_response mocked_payload 200 "OK") /\
  fst (refreshAccessToken mock_success "abc123" (load_module blank_world))
    = Fulfilled
        (JObject (<["access_token" := JString "t"]>
                 (<["token_type" := JString "bearer"]>
                 (<["expires_in" := JNumber 3600]> ∅)))).
Proof.
  split; [reflexivity|].
  apply (refreshAccessToken_returns_payload mock_success "abc123"
           (load_module blank_world) (mk_response mocked_payload 200 "OK")).
  reflexivity.
Defined.

(** The request of the specification's example, as the code sends it. *)
Lemma refresh_abc123_example :
  network (outside (snd (refreshAccessToken mock_success "abc123"
                           (load_module blank_world))))
    = [mk_request POST "http://localhost:8000/auth/refresh"
         (JObject {[ "refresh_token" := JString "abc123" ]})].
Proof. reflexivity. Qed.

(** A write to the environment after the module is loaded goes unseen. *)
Lemma late_env_write_example :
  network (outside (run mock_unauthorized
                      [EnvWrite VITE_API_URL "https://late.example.com";
                       CallRefreshAccessToken "abc123"]
                      (load_module blank_world)))
    = [refresh_request "http://localhost:8000" "abc123"].
Proof. reflexivity. Qed.

(** The mocked payload is a [TokenResponse]. *)
Lemma mocked_payload_conforms :
  conforms TokenResponse mocked_payload = true.
Proof. reflexivity. Qed.

(** ** The declared type of the login payload *)

(** C7, as the specification states it, fails: the declared type has no
    property [authorization_url], and so not the shape the specification
    gives. *)
Lemma AuthLoginResponse_is_not_the_spec_shape :
  same_shape AuthLoginResponse AuthorizationHandoff_spec = false /\
  lookup_property "authorization_url" AuthLoginResponse = None /\
  conforms AuthLoginResponse
    (JObject (<["authorization_url" := JString "https://accounts.example"]>
             (<["state" := JString "xyz"]> ∅))) = false.
Proof. repeat split. Qed.

(** C7, amended: the declared type has exactly the two required string
    properties [auth_url] and [state]; the values of that type are the
    objects that hold a string under each of the two names. *)
Theorem AuthLoginResponse_shape :
  (forall name : string,
     lookup_property name AuthLoginResponse
       = if decide (name = "auth_url" \/ name = "state")
         then Some (TsString, false) else None) /\
  length AuthLoginResponse = 2 /\
  same_shape AuthLoginResponse
    [mk_property "state" TsString false;
     mk_property "auth_url" TsString false] = true /\
  (forall v : js_value,
     conforms AuthLoginResponse v = true <->
     exists (props : gmap string js_value) (a s : string),
       v = JObject props /\
       props !! "auth_url" = Some (JString a) /\
       props !! "state" = Some (JString s)).
Proof.
  split; [|split; [reflexivity | split; [reflexivity|]]].
  - intros name. unfold AuthLoginResponse.
    cbn [lookup_property prop_name prop_type prop_optional].
    destruct (String.eqb_spec "auth_url" name) as [<-|Hn1].
    { case_decide as Hd; [reflexivity | exfalso; apply Hd; now left]. }
    destruct (String.eqb_spec "state" name) as [<-|Hn2].
    { case_decide as Hd; [reflexivity | exfalso; apply Hd; now right]. }
    case_decide as Hd; [|reflexivity].
    destruct Hd as [->| ->]; congruence.
  - intros v. split.
    + destruct v as [| | | | |items|props]; simpl; try discriminate.
      unfold property_ok; simpl.
      destruct (props !! "auth_url") as [[| | | |a| |]|] eqn:Ha;
        simpl; try discriminate.
      destruct (props !! "state") as [[| | | |s| |]|] eqn:Hs;
        simpl; try discriminate.
      intros _. exists props, a, s. auto.
    + intros (props & a & s & -> & Ha & Hs). simpl.
      unfold property_ok; simpl. now rewrite Ha, Hs.
Qed.

(** * Further properties of the module *)

(** ** Strings *)

Lemma append_cons (a : Ascii.ascii) (s t : string) :
  String a s +:+ t = String a (s +:+ t).
Proof. reflexivity. Qed.


Lemma length_append (s t : string) :
  String.length (s +:+ t) = String.length s + String.length t.
Proof.
  induction s as [|a s IH]; [reflexivity|].
  rewrite append_cons. simpl. now rewrite IH.
Qed.

Lemma append_left_nonempty (s t : string) : s <> "" -> s +:+ t <> t.
Proof.
  intros Hs Heq. apply (f_equal String.length) in Heq.
  rewrite length_append in Heq.
  destruct s as [|a s]; [congruence|]. simpl in Heq. lia.
Qed.


(** ** More on the base URL *)



(** X2: the base URL depends on the variable [VITE_API_URL] alone: writing
    or deleting any other variable of the environment before the module is
    loaded leaves it the same. *)
Theorem base_url_ignores_other_variables (w : world) (k v : string) :
  k <> VITE_API_URL ->
  API_BASE_URL (scope (load_module (set_env k v w)))
    = API_BASE_URL (scope (load_module w)) /\
  API_BASE_URL (scope (load_module (unset_env k w)))
    = API_BASE_URL (scope (load_module w)).
Proof.
  intros Hk. rewrite !load_module_base. unfold resolve_base_url. simpl.
  now rewrite lookup_insert_ne, lookup_delete_ne.
Qed.

Lemma base_url_ignores_other_variables_witness :
  "VITE_SPOTIFY_CLIENT_ID" <> VITE_API_URL /\
  API_BASE_URL (scope (load_module
                         (set_env "VITE_SPOTIFY_CLIENT_ID" "abc"
                            deployed_world)))
    = API_BASE_URL (scope (load_module deployed_world)).
Proof.
  split; [discriminate|].
  apply (base_url_ignores_other_variables deployed_world
           "VITE_SPOTIFY_CLIENT_ID" "abc").
  discriminate.
Defined.



(** ** Calls, composed *)

(** [redirectToLogin] is idempotent: a second call leaves the state of
    the first. *)
Lemma redirectToLogin_idempotent (st : client_state) :
  snd (redirectToLogin (snd (redirectToLogin st)))
    = snd (redirectToLogin st).
Proof. reflexivity. Qed.

Section Histories.

Context {T E : Type}.
Variable transport : world -> request -> settled E (AxiosResponse T).

Lemma run_cons (a : action) (acts : list action) (st : client_state) :
  run transport (a :: acts) st = run transport acts (step transport st a).
Proof. reflexivity. Qed.


Lemma step_console (st : client_state) (a : action) :
  console (outside (step transport st a)) = console (outside st).
Proof.
  destruct a; simpl; rewrite ?refreshAccessToken_state; reflexivity.
Qed.

Lemma step_href (st : client_state) (a : action) :
  href (outside (step transport st a))
    = if is_redirect a
      then API_BASE_URL (scope st) +:+ "/auth/login?redirect=true"
      else href (outside st).
Proof.
  destruct a; simpl; rewrite ?refreshAccessToken_state; reflexivity.
Qed.

Lemma step_env (st : client_state) (a : action) :
  is_call a = true ->
  env (outside (step transport st a)) = env (outside st).
Proof.
  destruct a; simpl; try discriminate; intros _;
    rewrite ?refreshAccessToken_state; reflexivity.
Qed.



(** X5: the module writes to the console once, when it is loaded, and what
    it writes is the base URL; no call writes there, so no token and no
    response is ever logged. *)
Theorem console_written_at_load_only (w : world) (acts : list action) :
  console (outside (run transport acts (load_module w)))
    = console w ++ [resolve_base_url (env w)].
Proof.
  change (console w ++ [resolve_base_url (env w)])
    with (console (outside (load_module w))).
  generalize (load_module w) as st.
  induction acts as [|a acts IH]; intros st; [reflexivity|].
  now rewrite run_cons, IH, step_console.
Qed.

(** X6: over a whole history, the location is the login URL as soon as one
    call of [redirectToLogin] occurred, and is untouched otherwise. *)
Theorem history_href (acts : list action) (st : client_state) :
  href (outside (run transport acts st))
    = if existsb is_redirect acts
      then API_BASE_URL (scope st) +:+ "/auth/login?redirect=true"
      else href (outside st).
Proof.
  revert st. induction acts as [|a acts IH]; intros st; [reflexivity|].
  rewrite run_cons, IH, step_href, (step_scope transport). simpl.
  destruct (is_redirect a), (existsb is_redirect acts); reflexivity.
Qed.

(** The two functions commute on the state: redirecting and then
    refreshing leaves the location, the log and the bindings that
    refreshing and then redirecting leaves. *)
Lemma redirect_refresh_commute (tok : string) (st : client_state) :
  snd (refreshAccessToken transport tok (snd (redirectToLogin st)))
    = snd (redirectToLogin (snd (refreshAccessToken transport tok st))).
Proof. now rewrite !refreshAccessToken_state. Qed.

(** X7: calls into the module never write the environment: over a history
    made of calls only, [import.meta.env] stays what it was. *)
Theorem calls_keep_env (acts : list action) (st : client_state) :
  forallb is_call acts = true ->
  env (outside (run transport acts st)) = env (outside st).
Proof.
  revert st. induction acts as [|a acts IH]; intros st; [reflexivity|].
  simpl. intros [Ha Hacts]%andb_true_iff.
  change (foldl (step transport) (step transport st a) acts)
    with (run transport acts (step transport st a)).
  rewrite (IH _ Hacts). now apply step_env.
Qed.

End Histories.

Lemma calls_keep_env_witness :
  forallb is_call [CallRefreshAccessToken "abc123"; CallRedirectToLogin] = true /\
  env (outside (run mock_unauthorized
                  [CallRefreshAccessToken "abc123"; CallRedirectToLogin]
                  (load_module deployed_world)))
    = env (outside (load_module deployed_world)).
Proof.
  split; [reflexivity|].
  apply (calls_keep_env mock_unauthorized
           [CallRefreshAccessToken "abc123"; CallRedirectToLogin]
           (load_module deployed_world)).
  reflexivity.
Defined.
